(** * Parsing routes of the document ingestion service

    A shallow embedding of [backend/api/parsing_routes.py]: the four route
    handlers [get_parsers], [parse_document], [get_task_status] and
    [get_all_tasks], written over an explicit state (work queue, status
    store, trace of calls to collaborators) with Python exceptions as an
    error result. *)

From Stdlib Require Import ZArith List Bool Lia.
From stdpp Require Import base option gmap strings.

Local Open Scope Z_scope.

(** ** Python values and exceptions *)

(** The JSON-like values the collaborators hand back (worker replies, task
    results). *)
#[local] Unset Elimination Schemes.
Inductive PyVal : Type :=
| PNone
| PBool (b : bool)
| PInt (n : Z)
| PStr (s : string)
| PList (l : list PyVal)
| PDict (d : list (string * PyVal)).
#[local] Set Elimination Schemes.

(** Python truthiness, as tested by [if stats:]. *)
Definition truthy (v : PyVal) : bool :=
  match v with
  | PNone => false
  | PBool b => b
  | PInt n => negb (Z.eqb n 0)
  | PStr s => negb (String.eqb s "")
  | PList l => match l with [] => false | _ => true end
  | PDict d => match d with [] => false | _ => true end
  end.

(** [d[k] = v] on a dict kept in insertion order. *)
Fixpoint dict_set (d : list (string * PyVal)) (k : string) (v : PyVal)
  : list (string * PyVal) :=
  match d with
  | [] => [(k, v)]
  | (k', v') :: d' =>
      if String.eqb k' k then (k, v) :: d' else (k', v') :: dict_set d' k v
  end.

(** Exceptions. [HTTPException] is the one the handlers raise themselves;
    [PyException] stands for any other subclass of [Exception] (its payload
    is the text [str(e)]); [PyBaseException] stands for the ones outside
    [Exception] (KeyboardInterrupt, SystemExit, CancelledError), which an
    [except Exception] clause lets through and a bare [except:] catches. *)
Inductive exn : Type :=
| HTTPException (status_code : Z) (detail : string)
| PyException (msg : string)
| PyBaseException (msg : string).

Definition is_Exception (e : exn) : bool :=
  match e with
  | PyBaseException _ => false
  | _ => true
  end.

Inductive Outcome (A : Type) : Type :=
| Return (a : A)
| Raise (e : exn).
Arguments Return {A} a.
Arguments Raise {A} e.

(** ** Data of the routes *)

Record ParseDocumentRequest := {
  document_id : string;
  parser : string
}.

(** [models.simbadoc.SimbaDoc]: only its presence is inspected here. *)
Record SimbaDoc := { doc_id : string }.

(** The two Celery tasks imported from [tasks.parsing_tasks]. *)
Inductive Task := parse_markitdown_task | parse_docling_task.

(** One unit of work on the queue: the identifier issued for it, the task
    and its argument. *)
Record WorkUnit := {
  unit_id : string;
  unit_task : Task;
  unit_document : string
}.

(** Modelled from the spec: the lifecycle states of a job (section 4.3,
    PENDING, STARTED, SUCCESS, FAILURE); the state type of Celery is not
    part of the source. *)
Inductive JobState := PENDING | STARTED | SUCCESS | FAILURE.

(** Modelled from the spec: [AsyncResult.ready()] of Celery, true exactly
    on the terminal states SUCCESS and FAILURE of section 4.3. *)
Definition ready (s : JobState) : bool :=
  match s with
  | SUCCESS | FAILURE => true
  | PENDING | STARTED => false
  end.

Definition status_name (s : JobState) : string :=
  match s with
  | PENDING => "PENDING"
  | STARTED => "STARTED"
  | SUCCESS => "SUCCESS"
  | FAILURE => "FAILURE"
  end.

(** What the result backend records for a task. *)
Record TaskMeta := {
  status : JobState;
  result : PyVal
}.

Inductive InspectKind := active | reserved | scheduled | registered.

(** Calls made to collaborators, in the order they happen. *)
Inductive Call :=
| CGetParsers
| CLogInfo (request : ParseDocumentRequest)
| CLogError (msg : string)
| CGetDocument (document_id : string)
| CDelay (t : Task) (document_id : string)
| CAsyncResult (task_id : string)
| CInspect (k : InspectKind)
| CStats.

(** The mutable part: the work queue, the status store, and what has been
    called so far. The handlers never write the store; only workers do. *)
Record Sys := {
  queue : list WorkUnit;
  store : gmap string TaskMeta;
  trace : list Call
}.

(** The collaborators the module imports, as the handlers see them.
    - [enable_parsers] is [settings.features.enable_parsers];
    - [db_get_document] is [db.get_document], which returns a document or
      [None], or raises;
    - [broker_send t d q] is what [t.delay(d)] does on queue [q]: it issues
      an identifier, or raises because the queue cannot accept the unit;
    - [parsers] is what [parser_service.get_parsers()] returns;
    - [inspect_reply k] and [stats_reply] are the replies of the worker
      fleet to [Inspect.active()], ..., [Inspect.stats()];
    - [http_str c d] is [str(HTTPException(c, d))], defined by the web
      framework and not by this module;
    - [no_record] is what the result backend reports for an identifier it
      holds no record of. *)
Record World := {
  enable_parsers : bool;
  db_get_document : string -> Outcome (option SimbaDoc);
  broker_send : Task -> string -> list WorkUnit -> Outcome string;
  parsers : PyVal;
  inspect_reply : InspectKind -> Outcome PyVal;
  stats_reply : Outcome PyVal;
  http_str : Z -> string -> string;
  no_record : TaskMeta
}.

(** [str(e)]. *)
Definition str (w : World) (e : exn) : string :=
  match e with
  | HTTPException c d => http_str w c d
  | PyException m => m
  | PyBaseException m => m
  end.

(** ** Handlers: state passing with exceptions *)

Definition Handler (A : Type) : Type := Sys -> Outcome A * Sys.

Definition ret {A} (a : A) : Handler A := fun s => (Return a, s).

Definition raise {A} (e : exn) : Handler A := fun s => (Raise e, s).

Definition bind {A B} (m : Handler A) (k : A -> Handler B) : Handler B :=
  fun s =>
    match m s with
    | (Return a, s') => k a s'
    | (Raise e, s') => (Raise e, s')
    end.

Notation "x <- m ;; k" := (bind m (fun x => k))
  (at level 100, m at next level, right associativity).
Notation "m ;;; k" := (bind m (fun _ => k))
  (at level 100, right associativity).

(** [try: m except Exception as e: h e]. *)
Definition try_except_Exception {A} (m : Handler A) (h : exn -> Handler A)
  : Handler A :=
  fun s =>
    match m s with
    | (Return a, s') => (Return a, s')
    | (Raise e, s') => if is_Exception e then h e s' else (Raise e, s')
    end.

(** [try: m except: h], the bare clause, which catches everything. *)
Definition try_except {A} (m : Handler A) (h : Handler A) : Handler A :=
  fun s =>
    match m s with
    | (Return a, s') => (Return a, s')
    | (Raise _, s') => h s'
    end.

Definition called (c : Call) : Handler unit :=
  fun s => (Return tt,
            {| queue := queue s; store := store s; trace := trace s ++ [c] |}).

(** Lift the outcome of a collaborator that leaves the state alone. *)
Definition outcome {A} (o : Outcome A) : Handler A := fun s => (o, s).

Definition logger_info (request : ParseDocumentRequest) : Handler unit :=
  called (CLogInfo request).

Definition logger_error (msg : string) : Handler unit :=
  called (CLogError msg).

Definition get_document (w : World) (d : string) : Handler (option SimbaDoc) :=
  called (CGetDocument d) ;;; outcome (db_get_document w d).

(** [t.delay(d)]: one more unit on the queue when the broker accepts it,
    the queue as it was when it raises. The value is [task.id]. *)
Definition delay (w : World) (t : Task) (d : string) : Handler string :=
  called (CDelay t d) ;;;
  fun s =>
    match broker_send w t d (queue s) with
    | Return id =>
        (Return id,
         {| queue := queue s ++ [{| unit_id := id; unit_task := t;
                                    unit_document := d |}];
            store := store s; trace := trace s |})
    | Raise e => (Raise e, s)
    end.

(** [celery.AsyncResult(task_id)] and its attributes [status], [result] and
    [ready()]: the record of the store, or [no_record]. The three reads of
    one request see the same record, and the store is taken to be
    reachable. *)
Definition AsyncResult (w : World) (task_id : string) : Handler TaskMeta :=
  called (CAsyncResult task_id) ;;;
  fun s => (Return (default (no_record w) (store s !! task_id)), s).

Definition inspect (w : World) (k : InspectKind) : Handler PyVal :=
  called (CInspect k) ;;; outcome (inspect_reply w k).

Definition inspect_stats (w : World) : Handler PyVal :=
  called CStats ;;; outcome (stats_reply w).

(** ** The routes *)

(** [GET /parsers] *)
Definition get_parsers (w : World) : Handler (list (string * PyVal)) :=
  called CGetParsers ;;;
  ret [("parsers", parsers w)].

Record ParseResponse := {
  task_id : string;
  status_url : string
}.

(** The [try] block of [parse_document]. *)
Definition parse_document_body (w : World) (request : ParseDocumentRequest)
  : Handler ParseResponse :=
  logger_info request ;;;
  simbadoc <- get_document w (document_id request) ;;
  match simbadoc with
  | None => raise (HTTPException 404 "Document not found")
  | Some _ =>
      task <- (if String.eqb (parser request) "markitdown" then
                 delay w parse_markitdown_task (document_id request)
               else if String.eqb (parser request) "docling" then
                 delay w parse_docling_task (document_id request)
               else
                 raise (HTTPException 400 "Unsupported parser")) ;;
      ret {| task_id := task; status_url := "parsing/tasks/" +:+ task |}
  end.

(** [POST /parse] *)
Definition parse_document (w : World) (request : ParseDocumentRequest)
  : Handler ParseResponse :=
  if negb (enable_parsers w) then
    raise (HTTPException 501
             "Document parsing is disabled in system configuration")
  else
    try_except_Exception (parse_document_body w request)
      (fun e =>
         logger_error ("Error queuing parsing task: " +:+ str w e) ;;;
         raise (HTTPException 500 (str w e))).

Record TaskStatusResponse := {
  st_task_id : string;
  st_status : string;
  st_result : PyVal
}.

(** [GET /parsing/tasks/{task_id}] *)
Definition get_task_status (w : World) (task_id : string)
  : Handler TaskStatusResponse :=
  res <- AsyncResult w task_id ;;
  ret {| st_task_id := task_id;
         st_status := status_name (status res);
         st_result := if ready (status res) then result res else PNone |}.

(** [GET /parsing/tasks] *)
Definition get_all_tasks (w : World) : Handler (list (string * PyVal)) :=
  try_except_Exception
    (a <- inspect w active ;;
     r <- inspect w reserved ;;
     sc <- inspect w scheduled ;;
     g <- inspect w registered ;;
     let tasks := [("active", a); ("reserved", r);
                   ("scheduled", sc); ("registered", g)] in
     tasks <- try_except
                (stats <- inspect_stats w ;;
                 if truthy stats then ret (dict_set tasks "stats" stats)
                 else ret tasks)
                (ret tasks) ;;
     ret tasks)
    (fun e =>
       logger_error ("Error fetching tasks: " +:+ str w e) ;;;
       raise (HTTPException 500 (str w e))).

(** ** Notions used in the statements *)

(** The response built from a record of the result backend. *)
Definition response_of (task_id : string) (m : TaskMeta) : TaskStatusResponse :=
  {| st_task_id := task_id;
     st_status := status_name (status m);
     st_result := if ready (status m) then result m else PNone |}.

(** [n] calls of [get_task_status] in a row, collecting the responses. *)
Fixpoint poll (w : World) (id : string) (n : nat)
  : Handler (list TaskStatusResponse) :=
  match n with
  | O => ret []
  | S n' =>
      r <- get_task_status w id ;;
      rs <- poll w id n' ;;
      ret (r :: rs)
  end.

(** The status code an outcome carries to the caller, if it is an
    [HTTPException]. *)
Definition status_code_of {A} (o : Outcome A) : option Z :=
  match o with
  | Raise (HTTPException c _) => Some c
  | _ => None
  end.

(** The order in which the dict literal of [get_all_tasks] queries the
    fleet. *)
Definition kinds : list InspectKind := [active; reserved; scheduled; registered].

Definition kind_index (k : InspectKind) : nat :=
  match k with
  | active => 0
  | reserved => 1
  | scheduled => 2
  | registered => 3
  end.

(** The state after the four queries and the statistics query were made. *)
Definition after_inspection (s : Sys) : Sys :=
  {| queue := queue s; store := store s;
     trace := trace s ++ map CInspect kinds ++ [CStats] |}.

(** The state after the queries up to and including [k] were made and the
    failure of the last one was logged. *)
Definition after_failure (w : World) (s : Sys) (k : InspectKind) (e : exn)
  : Sys :=
  {| queue := queue s; store := store s;
     trace := trace s ++ map CInspect (take (S (kind_index k)) kinds)
                ++ [CLogError ("Error fetching tasks: " +:+ str w e)] |}.

(** ** Worlds and states of the examples *)

Definition sys0 : Sys := {| queue := []; store := ∅; trace := [] |}.

Definition one_worker : PyVal := PDict [("worker-1", PList [])].

(** A deployment with one stored document, ["doc-1"], a broker that numbers
    the units it accepts, a registry that lists three names and a fleet
    that replies to every query. Its web framework prints an
    [HTTPException] as its detail, its result backend reports PENDING for
    identifiers it does not know. *)
Definition demo_world (enabled : bool) : World := {|
  enable_parsers := enabled;
  db_get_document := fun d =>
    Return (if String.eqb d "doc-1" then Some {| doc_id := d |} else None);
  broker_send := fun _ _ q =>
    Return (match q with [] => "job-0" | _ => "job-n" end);
  parsers := PList [PStr "markitdown"; PStr "docling"; PStr "Markitdown"];
  inspect_reply := fun k => Return one_worker;
  stats_reply := Return (PDict [("worker-1", PDict [("total", PInt 3)])]);
  http_str := fun _ d => d;
  no_record := {| status := PENDING; result := PNone |}
|}.

(** The same deployment behind a broker that refuses every unit. *)
Definition refusing_world : World := {|
  enable_parsers := true;
  db_get_document := db_get_document (demo_world true);
  broker_send := fun _ _ _ => Raise (PyException "broker unreachable");
  parsers := parsers (demo_world true);
  inspect_reply := inspect_reply (demo_world true);
  stats_reply := stats_reply (demo_world true);
  http_str := http_str (demo_world true);
  no_record := no_record (demo_world true)
|}.

(** The same deployment with chosen replies of the fleet. *)
Definition fleet_world (replies : InspectKind -> Outcome PyVal)
  (stats : Outcome PyVal) : World := {|
  enable_parsers := true;
  db_get_document := db_get_document (demo_world true);
  broker_send := broker_send (demo_world true);
  parsers := parsers (demo_world true);
  inspect_reply := replies;
  stats_reply := stats;
  http_str := http_str (demo_world true);
  no_record := no_record (demo_world true)
|}.

(** Only the [reserved] query fails: its worker does not answer. *)
Definition reserved_fails : World :=
  fleet_world
    (fun k => match k with
              | reserved => Raise (PyException "worker unreachable")
              | _ => Return one_worker
              end)
    (stats_reply (demo_world true)).

(** A store in which ["job-1"] has finished. *)
Definition finished_sys : Sys := {|
  queue := [];
  store := <["job-1" := {| status := SUCCESS; result := PStr "parsed" |}]> ∅;
  trace := []
|}.

(** ** Notions used for the further properties *)

(** The task the [if]/[elif] chain of [parse_document] picks for a parser
    name, if any. *)
Definition task_of_parser (p : string) : option Task :=
  if String.eqb p "markitdown" then Some parse_markitdown_task
  else if String.eqb p "docling" then Some parse_docling_task
  else None.

(** The unit of work a submission puts on the queue. *)
Definition unit_of (id : string) (t : Task) (request : ParseDocumentRequest)
  : WorkUnit :=
  {| unit_id := id; unit_task := t; unit_document := document_id request |}.

(** The state of a submission once the request was logged and the document
    looked up. *)
Definition looked_up (s : Sys) (request : ParseDocumentRequest) : Sys :=
  {| queue := queue s; store := store s;
     trace := trace s ++ [CLogInfo request;
                          CGetDocument (document_id request)] |}.

(** The same deployment under another setting of the feature flag. *)
Definition set_enabled (b : bool) (w : World) : World := {|
  enable_parsers := b;
  db_get_document := db_get_document w;
  broker_send := broker_send w;
  parsers := parsers w;
  inspect_reply := inspect_reply w;
  stats_reply := stats_reply w;
  http_str := http_str w;
  no_record := no_record w
|}.

(** The deployment of the examples with a document store that is down. *)
Definition store_down_world : World := {|
  enable_parsers := true;
  db_get_document := fun _ => Raise (PyException "database unavailable");
  broker_send := broker_send (demo_world true);
  parsers := parsers (demo_world true);
  inspect_reply := inspect_reply (demo_world true);
  stats_reply := stats_reply (demo_world true);
  http_str := http_str (demo_world true);
  no_record := no_record (demo_world true)
|}.

(** A worker writes the record [m] of job [id] into the status store. *)
Definition worker_records (id : string) (m : TaskMeta) (s : Sys) : Sys :=
  {| queue := queue s; store := <[id := m]> (store s); trace := trace s |}.

(** ** Stepping through a handler *)

Ltac unfold_handlers :=
  unfold parse_document, parse_document_body, get_task_status, get_all_tasks,
    get_parsers, get_document, delay, AsyncResult, inspect, inspect_stats,
    logger_info, logger_error, try_except_Exception, try_except,
    bind, ret, raise, called, outcome.

Lemma eqb_neq_false (a b : string) : a <> b -> String.eqb a b = false.
Proof. intros H. now apply String.eqb_neq. Qed.

(** The capability check admits exactly two spellings. *)
Lemma unsupported_eqb (p : string) :
  p <> "markitdown" -> p <> "docling" ->
  String.eqb p "markitdown" = false /\ String.eqb p "docling" = false.
Proof. intros H1 H2. split; now apply eqb_neq_false. Qed.

(** What the [try] block does when the lookup finds nothing: the 404 is
    raised right after the lookup, whatever the parser name is. *)
Lemma body_document_absent w request s :
  db_get_document w (document_id request) = Return None ->
  parse_document_body w request s =
  (Raise (HTTPException 404 "Document not found"),
   {| queue := queue s; store := store s;
      trace := (trace s ++ [CLogInfo request])
                 ++ [CGetDocument (document_id request)] |}).
Proof.
  intros Hdb. unfold_handlers. simpl. now rewrite Hdb.
Qed.

(** What the [try] block does on a stored document and a name that is
    neither of the two spellings: the 400 is raised, no task is sent. *)
Lemma body_unsupported w request s doc :
  db_get_document w (document_id request) = Return (Some doc) ->
  parser request <> "markitdown" -> parser request <> "docling" ->
  parse_document_body w request s =
  (Raise (HTTPException 400 "Unsupported parser"),
   {| queue := queue s; store := store s;
      trace := (trace s ++ [CLogInfo request])
                 ++ [CGetDocument (document_id request)] |}).
Proof.
  intros Hdb H1 H2. destruct (unsupported_eqb _ H1 H2) as [E1 E2].
  unfold_handlers. simpl. rewrite Hdb, E1, E2. reflexivity.
Qed.

(** ** The submission route *)

(** C4. While [settings.features.enable_parsers] is off, every call of
    [parse_document] fails with status 501 and leaves the state exactly as
    it was: nothing is looked up, logged or sent, whatever the request and
    whatever the document store and the broker would have answered. *)
Theorem parse_document_disabled w request s :
  enable_parsers w = false ->
  parse_document w request s =
  (Raise (HTTPException 501
            "Document parsing is disabled in system configuration"), s).
Proof.
  intros He. unfold parse_document. rewrite He. reflexivity.
Qed.

Lemma parse_document_disabled_witness :
  parse_document (demo_world false)
    {| document_id := "doc-1"; parser := "markitdown" |} sys0 =
  (Raise (HTTPException 501
            "Document parsing is disabled in system configuration"), sys0).
Proof.
  apply (parse_document_disabled (demo_world false)
           {| document_id := "doc-1"; parser := "markitdown" |} sys0).
  reflexivity.
Defined.

Section EnabledSubmission.

(** One submission, made while the feature is on. *)
Variables (w : World) (request : ParseDocumentRequest) (s : Sys).
Hypothesis enabled : enable_parsers w = true.

(** What the [except] clause of [parse_document] does with [e]. *)
Let on_error (e : exn) : Handler ParseResponse :=
  logger_error ("Error queuing parsing task: " +:+ str w e) ;;;
  raise (HTTPException 500 (str w e)).

(** The submission is its [try] block under the [except] clause. *)
Lemma parse_document_enabled :
  parse_document w request s =
  try_except_Exception (parse_document_body w request) on_error s.
Proof. unfold parse_document. now rewrite enabled. Qed.

(** Every exception that leaves the [try] block and is an [Exception] comes
    out of the [except] clause as status 500. *)
Lemma parse_document_rewraps e s1 :
  parse_document_body w request s = (Raise e, s1) ->
  is_Exception e = true ->
  fst (parse_document w request s) = Raise (HTTPException 500 (str w e)).
Proof.
  intros Hb Hx. rewrite parse_document_enabled.
  unfold try_except_Exception. rewrite Hb, Hx. reflexivity.
Qed.

(** C1. On an absent document and a parser name outside the two supported
    ones, the existence check does come first: the only exception raised in
    the [try] block is the 404, and neither the capability check nor a
    [delay] is reached. But the [except Exception] clause around the block
    catches that 404, so what the caller receives is status 500 whose
    detail is the text of the 404. *)
Theorem parse_document_absent_unsupported :
  db_get_document w (document_id request) = Return None ->
  parser request <> "markitdown" -> parser request <> "docling" ->
  parse_document w request s =
  (Raise (HTTPException 500
            (str w (HTTPException 404 "Document not found"))),
   {| queue := queue s; store := store s;
      trace := trace s ++
        [CLogInfo request; CGetDocument (document_id request);
         CLogError ("Error queuing parsing task: " +:+
                    str w (HTTPException 404 "Document not found"))] |}).
Proof.
  intros Hdb _ _. rewrite parse_document_enabled.
  unfold try_except_Exception. rewrite body_document_absent by assumption.
  unfold on_error. unfold_handlers. simpl. rewrite <- !app_assoc.
  reflexivity.
Qed.

(** C3. With the feature on, the failures of [parse_document] are not told
    apart by status: whatever goes wrong in the [try] block (document not
    found, unsupported parser, broker failure), an exception reaching the
    caller is either status 500 or one outside [Exception] that the broker
    or the document store raised. No 404 and no 400 ever reaches the
    caller. *)
Theorem parse_document_failures_share_status e :
  fst (parse_document w request s) = Raise e ->
  (exists d, e = HTTPException 500 d) \/ is_Exception e = false.
Proof.
  rewrite parse_document_enabled. unfold try_except_Exception.
  destruct (parse_document_body w request s) as [[r|e0] s1]; simpl.
  - discriminate.
  - destruct (is_Exception e0) eqn:Hx.
    + unfold on_error. unfold_handlers. simpl. intros [= <-]. left. eauto.
    + simpl. intros [= <-]. now right.
Qed.

(** C10. The capability check compares the name with the two literals and
    nothing else; [parsers w], the list [get_parsers] reports, is never
    consulted. On a stored document, every other name (case variants too)
    takes the [else] branch: the 400 "Unsupported parser" is raised, no
    task is sent, the queue is untouched. The [except Exception] clause
    then turns that 400 into status 500 carrying its text. *)
Theorem parse_document_closed_match doc :
  db_get_document w (document_id request) = Return (Some doc) ->
  parser request <> "markitdown" -> parser request <> "docling" ->
  parse_document w request s =
  (Raise (HTTPException 500
            (str w (HTTPException 400 "Unsupported parser"))),
   {| queue := queue s; store := store s;
      trace := trace s ++
        [CLogInfo request; CGetDocument (document_id request);
         CLogError ("Error queuing parsing task: " +:+
                    str w (HTTPException 400 "Unsupported parser"))] |}).
Proof.
  intros Hdb H1 H2. rewrite parse_document_enabled.
  unfold try_except_Exception.
  rewrite (body_unsupported w request s doc) by assumption.
  unfold on_error. unfold_handlers. simpl. rewrite <- !app_assoc.
  reflexivity.
Qed.

End EnabledSubmission.

Lemma parse_document_absent_unsupported_witness :
  fst (parse_document (demo_world true)
         {| document_id := "missing-doc"; parser := "unknown-parser" |} sys0)
  = Raise (HTTPException 500 "Document not found").
Proof.
  rewrite (parse_document_absent_unsupported (demo_world true)
             {| document_id := "missing-doc"; parser := "unknown-parser" |}
             sys0 eq_refl);
    [reflexivity | reflexivity | discriminate | discriminate].
Defined.

Lemma parse_document_failures_share_status_witness :
  (exists d, HTTPException 500 "Document not found" = HTTPException 500 d)
  \/ is_Exception (HTTPException 500 "Document not found") = false.
Proof.
  apply (parse_document_failures_share_status (demo_world true)
           {| document_id := "missing-doc"; parser := "markitdown" |} sys0
           eq_refl).
  reflexivity.
Defined.

(** The three failures of the taxonomy at concrete submissions: a missing
    document, an unknown parser and a broker that refuses all surface with
    the same status code. *)
Example failures_all_500 :
  status_code_of (fst (parse_document (demo_world true)
     {| document_id := "missing-doc"; parser := "markitdown" |} sys0))
    = Some 500 /\
  status_code_of (fst (parse_document (demo_world true)
     {| document_id := "doc-1"; parser := "unknown-parser" |} sys0))
    = Some 500 /\
  status_code_of (fst (parse_document refusing_world
     {| document_id := "doc-1"; parser := "markitdown" |} sys0))
    = Some 500.
Proof. repeat split. Qed.

(** The registry of [demo_world] lists "Markitdown"; the submission is
    refused all the same. *)
Lemma parse_document_closed_match_witness :
  fst (get_parsers (demo_world true) sys0)
  = Return [("parsers",
             PList [PStr "markitdown"; PStr "docling"; PStr "Markitdown"])] /\
  fst (parse_document (demo_world true)
         {| document_id := "doc-1"; parser := "Markitdown" |} sys0)
  = Raise (HTTPException 500 "Unsupported parser").
Proof.
  split; [reflexivity | ].
  rewrite (parse_document_closed_match (demo_world true)
             {| document_id := "doc-1"; parser := "Markitdown" |} sys0
             eq_refl {| doc_id := "doc-1" |});
    [reflexivity | reflexivity | discriminate | discriminate].
Defined.

(** C7. One call of [parse_document] puts exactly one unit of work on the
    queue when it succeeds, the unit carrying the returned identifier and
    the submitted document, under the task of the requested parser; on
    every failure (feature off, document not found, unsupported parser,
    broker refusal, failing lookup) the queue is what it was. *)
Theorem parse_document_enqueues w request s :
  match parse_document w request s with
  | (Return r, s') =>
      exists t,
        (t = parse_markitdown_task /\ parser request = "markitdown" \/
         t = parse_docling_task /\ parser request = "docling") /\
        queue s' = queue s ++ [{| unit_id := task_id r; unit_task := t;
                                  unit_document := document_id request |}]
  | (Raise _, s') => queue s' = queue s
  end.
Proof.
  unfold parse_document.
  destruct (enable_parsers w); simpl; [ | reflexivity ].
  unfold_handlers. simpl.
  destruct (db_get_document w (document_id request)) as [[doc|]|e]; simpl.
  - destruct (String.eqb_spec (parser request) "markitdown") as [Hm|Hm].
    + simpl.
      destruct (broker_send w parse_markitdown_task (document_id request)
                  (queue s)) as [id|e]; simpl.
      * exists parse_markitdown_task. split; [now left | reflexivity].
      * destruct (is_Exception e); reflexivity.
    + destruct (String.eqb_spec (parser request) "docling") as [Hd|Hd]; simpl.
      * destruct (broker_send w parse_docling_task (document_id request)
                    (queue s)) as [id|e]; simpl.
        -- exists parse_docling_task. split; [now right | reflexivity].
        -- destruct (is_Exception e); reflexivity.
      * reflexivity.
  - reflexivity.
  - destruct (is_Exception e); reflexivity.
Qed.

(** ** The status route *)

(** [get_task_status] always returns: it reads the store once and writes
    nothing but the trace. *)
Lemma get_task_status_reads w id s :
  get_task_status w id s =
  (Return (response_of id (default (no_record w) (store s !! id))),
   {| queue := queue s; store := store s;
      trace := trace s ++ [CAsyncResult id] |}).
Proof. reflexivity. Qed.

(** C9. A successful [parse_document] returns the identifier the broker
    issued at this very call for the unit it accepted (when the broker
    never reissues an identifier that is on the queue, it is none of those
    queued before), with the status location ["parsing/tasks/" + id] built
    from that identifier. And [get_task_status] on it, in whatever state
    the store is by then, returns that identifier, the name of the state
    the store records for the job (or the backend reports while it records
    none), and a result that is [None] as long as that state is not
    terminal and the recorded result once it is. *)
Theorem parse_document_then_status w request s r s' :
  parse_document w request s = (Return r, s') ->
  (exists t, broker_send w t (document_id request) (queue s)
             = Return (task_id r)) /\
  status_url r = "parsing/tasks/" +:+ task_id r /\
  ((forall t d q id, broker_send w t d q = Return id ->
                     ~ In id (map unit_id q)) ->
   ~ In (task_id r) (map unit_id (queue s))) /\
  forall s2 m,
    default (no_record w) (store s2 !! task_id r) = m ->
    exists resp,
      fst (get_task_status w (task_id r) s2) = Return resp /\
      st_task_id resp = task_id r /\
      st_status resp = status_name (status m) /\
      (ready (status m) = false -> st_result resp = PNone) /\
      (ready (status m) = true -> st_result resp = result m).
Proof.
  intros Hrun.
  assert (Hresp : (exists t, broker_send w t (document_id request) (queue s)
                             = Return (task_id r)) /\
                  status_url r = "parsing/tasks/" +:+ task_id r).
  { revert Hrun. unfold parse_document.
    destruct (enable_parsers w); simpl; [ | discriminate ].
    unfold_handlers. simpl.
    destruct (db_get_document w (document_id request)) as [[doc|]|e]; simpl.
    - destruct (String.eqb (parser request) "markitdown").
      + simpl.
        destruct (broker_send w parse_markitdown_task (document_id request)
                    (queue s)) as [id|e] eqn:Hsend; simpl.
        * intros [= <- _]. simpl. split; [eauto | reflexivity].
        * destruct (is_Exception e); discriminate.
      + destruct (String.eqb (parser request) "docling"); simpl.
        * destruct (broker_send w parse_docling_task (document_id request)
                      (queue s)) as [id|e] eqn:Hsend; simpl.
          -- intros [= <- _]. simpl. split; [eauto | reflexivity].
          -- destruct (is_Exception e); discriminate.
        * discriminate.
    - discriminate.
    - destruct (is_Exception e); discriminate. }
  destruct Hresp as [Hid Hurl].
  split; [exact Hid | ]. split; [exact Hurl | ]. split.
  - intros Hfresh. destruct Hid as [t Hsend]. exact (Hfresh _ _ _ _ Hsend).
  - intros s2 m Hm. rewrite get_task_status_reads. simpl. rewrite Hm.
    exists (response_of (task_id r) m). unfold response_of. simpl.
    split; [reflexivity | ]. split; [reflexivity | ].
    split; [reflexivity | ].
    split; intros Hr; now rewrite Hr.
Qed.

(** The scenario of the spec: ["doc-1"] is stored, ["markitdown"] is asked
    for. The job reads PENDING right after the submission, STARTED without
    a result once a worker has claimed it (whatever the worker noted down),
    and SUCCESS with its result in the end. *)
Lemma parse_document_then_status_witness :
  let request := {| document_id := "doc-1"; parser := "markitdown" |} in
  let submitted :=
    {| queue := [{| unit_id := "job-0"; unit_task := parse_markitdown_task;
                    unit_document := "doc-1" |}];
       store := ∅;
       trace := [CLogInfo request; CGetDocument "doc-1";
                 CDelay parse_markitdown_task "doc-1"] |} in
  parse_document (demo_world true) request sys0
  = (Return {| task_id := "job-0"; status_url := "parsing/tasks/job-0" |},
     submitted) /\
  fst (get_task_status (demo_world true) "job-0" submitted)
  = Return {| st_task_id := "job-0"; st_status := "PENDING";
              st_result := PNone |} /\
  fst (get_task_status (demo_world true) "job-0"
         (worker_records "job-0"
            {| status := STARTED; result := PStr "page 3 of 7" |} submitted))
  = Return {| st_task_id := "job-0"; st_status := "STARTED";
              st_result := PNone |} /\
  fst (get_task_status (demo_world true) "job-0"
         (worker_records "job-0"
            {| status := SUCCESS; result := PStr "parsed" |} submitted))
  = Return {| st_task_id := "job-0"; st_status := "SUCCESS";
              st_result := PStr "parsed" |}.
Proof.
  intros request submitted.
  destruct (parse_document_then_status (demo_world true) request sys0
              {| task_id := "job-0"; status_url := "parsing/tasks/job-0" |}
              submitted eq_refl) as (_ & _ & _ & Hstatus).
  split; [reflexivity | ].
  split; [ | split ].
  - destruct (Hstatus submitted {| status := PENDING; result := PNone |}
                eq_refl) as ([i n v] & Hr & Hi & Hn & Hv & _).
    etransitivity; [exact Hr | ].
    simpl in *. now rewrite Hi, Hn, (Hv eq_refl).
  - destruct (Hstatus
                (worker_records "job-0"
                   {| status := STARTED; result := PStr "page 3 of 7" |}
                   submitted)
                {| status := STARTED; result := PStr "page 3 of 7" |}
                eq_refl) as ([i n v] & Hr & Hi & Hn & Hv & _).
    etransitivity; [exact Hr | ].
    simpl in *. now rewrite Hi, Hn, (Hv eq_refl).
  - destruct (Hstatus
                (worker_records "job-0"
                   {| status := SUCCESS; result := PStr "parsed" |}
                   submitted)
                {| status := SUCCESS; result := PStr "parsed" |}
                eq_refl) as ([i n v] & Hr & Hi & Hn & _ & Hv).
    etransitivity; [exact Hr | ].
    simpl in *. now rewrite Hi, Hn, (Hv eq_refl).
Defined.

(** C5 (as the code has it). [get_task_status] has no case of its own for
    an identifier the store holds no record of. It does not raise: it
    returns the response built from what the result backend reports for
    such an identifier, the same for an identifier that was never issued
    and for one whose record has expired (was deleted from the store). The
    state in it is a lifecycle state, not a state of its own: the response
    is the one the identifier would get if that very record were stored for
    it, and it reads PENDING with no result when the backend reports
    PENDING for unknown identifiers. *)
Theorem get_task_status_unknown w id s_never s :
  store s_never !! id = None ->
  fst (get_task_status w id s_never) = Return (response_of id (no_record w)) /\
  fst (get_task_status w id
         {| queue := queue s; store := delete id (store s);
            trace := trace s |})
  = fst (get_task_status w id s_never) /\
  fst (get_task_status w id (worker_records id (no_record w) s))
  = fst (get_task_status w id s_never) /\
  (no_record w = {| status := PENDING; result := PNone |} ->
   fst (get_task_status w id s_never)
   = Return {| st_task_id := id; st_status := "PENDING";
               st_result := PNone |}).
Proof.
  intros Hnone. rewrite !get_task_status_reads. simpl.
  rewrite Hnone, lookup_delete_eq, lookup_insert_eq. simpl.
  repeat split. intros ->. reflexivity.
Qed.

(** ["job-9"] was never issued in [sys0]; in the other state it finished
    and its record is then dropped. Both read as PENDING with no result. *)
Lemma get_task_status_unknown_witness :
  fst (get_task_status (demo_world true) "job-9" sys0)
  = Return {| st_task_id := "job-9"; st_status := "PENDING";
              st_result := PNone |} /\
  fst (get_task_status (demo_world true) "job-9"
         {| queue := [];
            store := delete "job-9"
                       (<["job-9" := {| status := SUCCESS;
                                        result := PStr "parsed" |}]> ∅);
            trace := [] |})
  = fst (get_task_status (demo_world true) "job-9" sys0).
Proof.
  destruct (get_task_status_unknown (demo_world true) "job-9" sys0
              {| queue := [];
                 store := <["job-9" := {| status := SUCCESS;
                                          result := PStr "parsed" |}]> ∅;
                 trace := [] |} eq_refl) as (_ & Hexpired & _ & Hpending).
  split; [exact (Hpending eq_refl) | exact Hexpired].
Defined.

(** C5 (as the spec has it) fails: there is no "unknown" state. The
    identifier ["job-9"] was never issued, and what the caller is told
    about it is PENDING with no result, word for word what is told about a
    job that is recorded as PENDING, waiting in the queue. *)
Lemma get_task_status_no_unknown_state :
  store sys0 !! "job-9" = None /\
  fst (get_task_status (demo_world true) "job-9" sys0)
  = Return {| st_task_id := "job-9"; st_status := "PENDING";
              st_result := PNone |} /\
  fst (get_task_status (demo_world true) "job-9"
         (worker_records "job-9"
            {| status := PENDING; result := PNone |} sys0))
  = fst (get_task_status (demo_world true) "job-9" sys0).
Proof. repeat split. Qed.

(** One more call in front of [n] others. *)
Lemma poll_step w id n s :
  poll w id (S n) s =
  match poll w id n {| queue := queue s; store := store s;
                       trace := trace s ++ [CAsyncResult id] |} with
  | (Return rs, s2) =>
      (Return (response_of id (default (no_record w) (store s !! id)) :: rs),
       s2)
  | (Raise e, s2) => (Raise e, s2)
  end.
Proof. reflexivity. Qed.

(** Polling leaves the queue and the store alone, and every response is the
    one determined by the record in the store. *)
Lemma poll_reads w id n : forall s,
  fst (poll w id n s) =
    Return (repeat (response_of id (default (no_record w) (store s !! id))) n)
  /\ store (snd (poll w id n s)) = store s
  /\ queue (snd (poll w id n s)) = queue s.
Proof.
  induction n as [|n IH]; intros s.
  - simpl. repeat split.
  - rewrite poll_step.
    destruct (IH {| queue := queue s; store := store s;
                    trace := trace s ++ [CAsyncResult id] |})
      as (Hres & Hst & Hq).
    destruct (poll w id n _) as [[rs|e] s2]; simpl in *.
    + injection Hres as ->. repeat split; assumption.
    + discriminate.
Qed.

(** C8. For a job whose record is terminal (SUCCESS or FAILURE), any number
    of calls of [get_task_status] in a row return one and the same
    response, carrying the recorded state and result, and leave the status
    store (and the queue) as they were. *)
Theorem get_task_status_idempotent w id m n s :
  store s !! id = Some m ->
  ready (status m) = true ->
  fst (poll w id n s) =
    Return (repeat {| st_task_id := id; st_status := status_name (status m);
                      st_result := result m |} n) /\
  store (snd (poll w id n s)) = store s /\
  queue (snd (poll w id n s)) = queue s.
Proof.
  intros Hm Hr. destruct (poll_reads w id n s) as (Hres & Hst & Hq).
  rewrite Hm in Hres. simpl in Hres. unfold response_of in Hres.
  rewrite Hr in Hres. auto.
Qed.

Lemma get_task_status_idempotent_witness :
  fst (poll (demo_world true) "job-1" 3 finished_sys) =
    Return (repeat {| st_task_id := "job-1"; st_status := "SUCCESS";
                      st_result := PStr "parsed" |} 3) /\
  store (snd (poll (demo_world true) "job-1" 3 finished_sys))
  = store finished_sys /\
  queue (snd (poll (demo_world true) "job-1" 3 finished_sys))
  = queue finished_sys.
Proof.
  exact (get_task_status_idempotent (demo_world true) "job-1"
           {| status := SUCCESS; result := PStr "parsed" |} 3 finished_sys
           eq_refl eq_refl).
Defined.

(** ** The fleet route *)

(** When the four queries return, the call returns: the four fields hold
    what the queries returned, and ["stats"] is added exactly when the
    statistics query returned something truthy. *)
Lemma get_all_tasks_returns w s a r sc g :
  inspect_reply w active = Return a ->
  inspect_reply w reserved = Return r ->
  inspect_reply w scheduled = Return sc ->
  inspect_reply w registered = Return g ->
  get_all_tasks w s =
  (Return (let tasks := [("active", a); ("reserved", r);
                         ("scheduled", sc); ("registered", g)] in
           match stats_reply w with
           | Return stats =>
               if truthy stats then tasks ++ [("stats", stats)] else tasks
           | Raise _ => tasks
           end),
   after_inspection s).
Proof.
  intros Ha Hr Hs Hg. unfold_handlers. simpl. rewrite Ha, Hr, Hs, Hg. simpl.
  unfold after_inspection. simpl. rewrite <- !app_assoc. simpl.
  destruct (stats_reply w) as [stats|e]; simpl; [ | reflexivity ].
  destruct (truthy stats); reflexivity.
Qed.

(** C6. When the four queries return and the statistics query raises,
    whatever it raises, [get_all_tasks] returns the four collections and no
    ["stats"] field; nothing is raised to the caller and nothing is logged. *)
Theorem get_all_tasks_absorbs_stats_failure w s a r sc g e :
  inspect_reply w active = Return a ->
  inspect_reply w reserved = Return r ->
  inspect_reply w scheduled = Return sc ->
  inspect_reply w registered = Return g ->
  stats_reply w = Raise e ->
  get_all_tasks w s =
  (Return [("active", a); ("reserved", r);
           ("scheduled", sc); ("registered", g)],
   after_inspection s).
Proof.
  intros Ha Hr Hs Hg He.
  rewrite (get_all_tasks_returns w s a r sc g) by assumption.
  now rewrite He.
Qed.

Lemma get_all_tasks_absorbs_stats_failure_witness :
  get_all_tasks
    (fleet_world (fun _ => Return one_worker)
       (Raise (PyBaseException "cancelled"))) sys0 =
  (Return [("active", one_worker); ("reserved", one_worker);
           ("scheduled", one_worker); ("registered", one_worker)],
   after_inspection sys0).
Proof.
  exact (get_all_tasks_absorbs_stats_failure
           (fleet_world (fun _ => Return one_worker)
              (Raise (PyBaseException "cancelled")))
           sys0 one_worker one_worker one_worker one_worker
           (PyBaseException "cancelled")
           eq_refl eq_refl eq_refl eq_refl eq_refl).
Defined.

(** With statistics available the field is there. *)
Example get_all_tasks_with_stats :
  fst (get_all_tasks (demo_world true) sys0) =
  Return [("active", one_worker); ("reserved", one_worker);
          ("scheduled", one_worker); ("registered", one_worker);
          ("stats", PDict [("worker-1", PDict [("total", PInt 3)])])].
Proof. reflexivity. Qed.

(** C2 (as the code has it). The four queries are made one after the other
    inside a single [try] block. When one of them raises and those before
    it returned, the queries after it are not made and the whole call
    fails, no field of the others being returned: with status 500 carrying
    the text of that exception, the failure being logged, when it is an
    [Exception]; with that exception itself, unlogged, when it is not. *)
Theorem get_all_tasks_first_failure_aborts w s k e :
  inspect_reply w k = Raise e ->
  (forall k', (kind_index k' < kind_index k)%nat ->
              exists v, inspect_reply w k' = Return v) ->
  get_all_tasks w s =
  if is_Exception e then
    (Raise (HTTPException 500 (str w e)), after_failure w s k e)
  else
    (Raise e,
     {| queue := queue s; store := store s;
        trace := trace s ++ map CInspect (take (S (kind_index k)) kinds) |}).
Proof.
  intros Hk Hbefore.
  assert (Ha : (kind_index active < kind_index k)%nat ->
               exists v, inspect_reply w active = Return v) by auto.
  assert (Hr : (kind_index reserved < kind_index k)%nat ->
               exists v, inspect_reply w reserved = Return v) by auto.
  assert (Hs : (kind_index scheduled < kind_index k)%nat ->
               exists v, inspect_reply w scheduled = Return v) by auto.
  clear Hbefore. unfold after_failure.
  destruct (is_Exception e) eqn:Hx; destruct k; simpl in *.
  - unfold_handlers. simpl. rewrite Hk, Hx. simpl.
    rewrite <- !app_assoc. reflexivity.
  - destruct Ha as [a Ha]; [lia | ].
    unfold_handlers. simpl. rewrite Ha. simpl. rewrite Hk, Hx. simpl.
    rewrite <- !app_assoc. reflexivity.
  - destruct Ha as [a Ha]; [lia | ]. destruct Hr as [r Hr]; [lia | ].
    unfold_handlers. simpl. rewrite Ha. simpl. rewrite Hr. simpl.
    rewrite Hk, Hx. simpl. rewrite <- !app_assoc. reflexivity.
  - destruct Ha as [a Ha]; [lia | ]. destruct Hr as [r Hr]; [lia | ].
    destruct Hs as [sc Hs]; [lia | ].
    unfold_handlers. simpl. rewrite Ha. simpl. rewrite Hr. simpl.
    rewrite Hs. simpl. rewrite Hk, Hx. simpl.
    rewrite <- !app_assoc. reflexivity.
  - unfold_handlers. simpl. rewrite Hk, Hx. reflexivity.
  - destruct Ha as [a Ha]; [lia | ].
    unfold_handlers. simpl. rewrite Ha. simpl. rewrite Hk, Hx.
    rewrite <- !app_assoc. reflexivity.
  - destruct Ha as [a Ha]; [lia | ]. destruct Hr as [r Hr]; [lia | ].
    unfold_handlers. simpl. rewrite Ha. simpl. rewrite Hr. simpl.
    rewrite Hk, Hx. rewrite <- !app_assoc. reflexivity.
  - destruct Ha as [a Ha]; [lia | ]. destruct Hr as [r Hr]; [lia | ].
    destruct Hs as [sc Hs]; [lia | ].
    unfold_handlers. simpl. rewrite Ha. simpl. rewrite Hr. simpl.
    rewrite Hs. simpl. rewrite Hk, Hx. rewrite <- !app_assoc. reflexivity.
Qed.

(** The worker behind [reserved] does not answer; and, in a second fleet,
    the [reserved] query is interrupted. *)
Lemma get_all_tasks_first_failure_aborts_witness :
  get_all_tasks reserved_fails sys0 =
  (Raise (HTTPException 500 "worker unreachable"),
   {| queue := []; store := ∅;
      trace := [CInspect active; CInspect reserved;
                CLogError "Error fetching tasks: worker unreachable"] |}) /\
  get_all_tasks
    (fleet_world
       (fun k => match k with
                 | reserved => Raise (PyBaseException "SystemExit")
                 | _ => Return one_worker
                 end)
       (Return PNone)) sys0 =
  (Raise (PyBaseException "SystemExit"),
   {| queue := []; store := ∅;
      trace := [CInspect active; CInspect reserved] |}).
Proof.
  split.
  - apply (get_all_tasks_first_failure_aborts reserved_fails sys0 reserved
             (PyException "worker unreachable")).
    + reflexivity.
    + intros [] Hlt; simpl in Hlt; try lia. exists one_worker. reflexivity.
  - apply (get_all_tasks_first_failure_aborts
             (fleet_world
                (fun k => match k with
                          | reserved => Raise (PyBaseException "SystemExit")
                          | _ => Return one_worker
                          end)
                (Return PNone)) sys0 reserved
             (PyBaseException "SystemExit")).
    + reflexivity.
    + intros [] Hlt; simpl in Hlt; try lia. exists one_worker. reflexivity.
Defined.

(** C2 (as the spec has it) fails: exactly one of the four queries fails,
    the three others would answer, and yet the call does not return their
    results: it fails as a whole, and [scheduled] and [registered] are not
    even asked. *)
Lemma get_all_tasks_one_failure_not_tolerated :
  inspect_reply reserved_fails reserved
    = Raise (PyException "worker unreachable") /\
  (forall k, k <> reserved -> inspect_reply reserved_fails k
                              = Return one_worker) /\
  (forall tasks, fst (get_all_tasks reserved_fails sys0) <> Return tasks) /\
  fst (get_all_tasks reserved_fails sys0)
    = Raise (HTTPException 500 "worker unreachable").
Proof.
  split; [reflexivity | ]. split.
  - intros [] Hk; try reflexivity. now destruct Hk.
  - split; [intros tasks; discriminate | reflexivity].
Qed.


(** ** Further properties of the submission route *)

(** The [if]/[elif] chain in terms of [task_of_parser]. *)
Lemma task_of_parser_Some p t :
  task_of_parser p = Some t <->
  (t = parse_markitdown_task /\ p = "markitdown") \/
  (t = parse_docling_task /\ p = "docling").
Proof.
  unfold task_of_parser.
  destruct (String.eqb_spec p "markitdown") as [Hm|Hm].
  - split.
    + intros [= <-]. now left.
    + intros [[-> _]|[_ Hd]]; [reflexivity | ]. subst p. discriminate.
  - destruct (String.eqb_spec p "docling") as [Hd|Hd].
    + split.
      * intros [= <-]. now right.
      * intros [[_ H]|[-> _]]; [contradiction | reflexivity].
    + split; [discriminate | ].
      intros [[_ H]|[_ H]]; contradiction.
Qed.

(** The [try] block of [parse_document], path by path. *)
Lemma parse_document_body_runs w request s :
  parse_document_body w request s =
  match db_get_document w (document_id request) with
  | Raise e => (Raise e, looked_up s request)
  | Return None =>
      (Raise (HTTPException 404 "Document not found"), looked_up s request)
  | Return (Some _) =>
      match task_of_parser (parser request) with
      | None =>
          (Raise (HTTPException 400 "Unsupported parser"),
           looked_up s request)
      | Some t =>
          match broker_send w t (document_id request) (queue s) with
          | Return id =>
              (Return {| task_id := id;
                         status_url := "parsing/tasks/" +:+ id |},
               {| queue := queue s ++ [unit_of id t request];
                  store := store s;
                  trace := trace s ++ [CLogInfo request;
                                       CGetDocument (document_id request);
                                       CDelay t (document_id request)] |})
          | Raise e =>
              (Raise e,
               {| queue := queue s; store := store s;
                  trace := trace s ++ [CLogInfo request;
                                       CGetDocument (document_id request);
                                       CDelay t (document_id request)] |})
          end
      end
  end.
Proof.
  unfold looked_up, task_of_parser, unit_of. unfold_handlers. simpl.
  destruct (db_get_document w (document_id request)) as [[doc|]|e]; simpl;
    rewrite <- ?app_assoc; simpl; try reflexivity.
  destruct (String.eqb (parser request) "markitdown"); simpl.
  - destruct (broker_send w parse_markitdown_task (document_id request)
                (queue s)); simpl; rewrite <- ?app_assoc; reflexivity.
  - destruct (String.eqb (parser request) "docling"); simpl.
    + destruct (broker_send w parse_docling_task (document_id request)
                  (queue s)); simpl; rewrite <- ?app_assoc; reflexivity.
    + rewrite <- ?app_assoc. reflexivity.
Qed.

(** What the [except] clause makes of an [Exception] that left the [try]
    block in state [s1]. *)
Lemma parse_document_handles w request s e s1 :
  enable_parsers w = true ->
  parse_document_body w request s = (Raise e, s1) ->
  is_Exception e = true ->
  parse_document w request s =
  (Raise (HTTPException 500 (str w e)),
   {| queue := queue s1; store := store s1;
      trace := trace s1 ++
               [CLogError ("Error queuing parsing task: " +:+ str w e)] |}).
Proof.
  intros He Hb Hx. unfold parse_document. rewrite He. simpl.
  unfold try_except_Exception. rewrite Hb, Hx. reflexivity.
Qed.

(** What a returning [try] block gives: the [except] clause is not
    entered. *)
Lemma parse_document_passes w request s r s1 :
  enable_parsers w = true ->
  parse_document_body w request s = (Return r, s1) ->
  parse_document w request s = (Return r, s1).
Proof.
  intros He Hb. unfold parse_document. rewrite He. simpl.
  unfold try_except_Exception. now rewrite Hb.
Qed.

(** X1. [parse_document] returns exactly when the feature is on, the
    document store hands back a document, the parser name is one of the
    two literals and the broker accepts the unit; in every other case it
    raises. *)
Theorem parse_document_succeeds_iff w request s :
  (exists r s', parse_document w request s = (Return r, s')) <->
  enable_parsers w = true /\
  exists doc t id,
    db_get_document w (document_id request) = Return (Some doc) /\
    task_of_parser (parser request) = Some t /\
    broker_send w t (document_id request) (queue s) = Return id.
Proof.
  split.
  - intros (r & s' & Hrun). revert Hrun. unfold parse_document.
    destruct (enable_parsers w); simpl; [ | discriminate ].
    intros Hrun. split; [reflexivity | ]. revert Hrun.
    unfold try_except_Exception. rewrite parse_document_body_runs.
    destruct (db_get_document w (document_id request)) as [[doc|]|e].
    + destruct (task_of_parser (parser request)) as [t|].
      * destruct (broker_send w t (document_id request) (queue s))
          as [id|e] eqn:Hsend.
        -- intros _. exists doc, t, id. auto.
        -- destruct (is_Exception e); discriminate.
      * discriminate.
    + discriminate.
    + destruct (is_Exception e); discriminate.
  - intros (He & doc & t & id & Hdb & Ht & Hsend).
    eexists _, _. apply parse_document_passes; [assumption | ].
    rewrite parse_document_body_runs, Hdb, Ht, Hsend. reflexivity.
Qed.

(** X2. When [db.get_document] itself raises an [Exception], the submission
    fails with status 500 carrying the text of that exception; the failure
    is logged, the parser name is not looked at and nothing is sent to the
    broker. *)
Theorem parse_document_lookup_failure w request s e :
  enable_parsers w = true ->
  db_get_document w (document_id request) = Raise e ->
  is_Exception e = true ->
  parse_document w request s =
  (Raise (HTTPException 500 (str w e)),
   {| queue := queue s; store := store s;
      trace := trace s ++
        [CLogInfo request; CGetDocument (document_id request);
         CLogError ("Error queuing parsing task: " +:+ str w e)] |}).
Proof.
  intros He Hdb Hx.
  rewrite (parse_document_handles w request s e (looked_up s request))
    by (try assumption; now rewrite parse_document_body_runs, Hdb).
  unfold looked_up. simpl. rewrite <- app_assoc. reflexivity.
Qed.

Lemma parse_document_lookup_failure_witness :
  parse_document store_down_world
    {| document_id := "doc-1"; parser := "no-such-parser" |} sys0 =
  (Raise (HTTPException 500 "database unavailable"),
   {| queue := []; store := ∅;
      trace := [CLogInfo {| document_id := "doc-1";
                            parser := "no-such-parser" |};
                CGetDocument "doc-1";
                CLogError
                  "Error queuing parsing task: database unavailable"] |}).
Proof.
  exact (parse_document_lookup_failure store_down_world
           {| document_id := "doc-1"; parser := "no-such-parser" |} sys0
           (PyException "database unavailable") eq_refl eq_refl eq_refl).
Defined.

(** X3. When the broker refuses the unit with an [Exception], the
    submission fails with status 500 carrying the broker's text. [delay]
    was called once, after the lookup, the failure is logged and the queue
    is as it was. *)
Theorem parse_document_dispatch_failure w request s doc t e :
  enable_parsers w = true ->
  db_get_document w (document_id request) = Return (Some doc) ->
  task_of_parser (parser request) = Some t ->
  broker_send w t (document_id request) (queue s) = Raise e ->
  is_Exception e = true ->
  parse_document w request s =
  (Raise (HTTPException 500 (str w e)),
   {| queue := queue s; store := store s;
      trace := trace s ++
        [CLogInfo request; CGetDocument (document_id request);
         CDelay t (document_id request);
         CLogError ("Error queuing parsing task: " +:+ str w e)] |}).
Proof.
  intros He Hdb Ht Hsend Hx.
  rewrite (parse_document_handles w request s e
             {| queue := queue s; store := store s;
                trace := trace s ++ [CLogInfo request;
                                     CGetDocument (document_id request);
                                     CDelay t (document_id request)] |})
    by (try assumption;
        now rewrite parse_document_body_runs, Hdb, Ht, Hsend).
  simpl. rewrite <- app_assoc. reflexivity.
Qed.

Lemma parse_document_dispatch_failure_witness :
  parse_document refusing_world
    {| document_id := "doc-1"; parser := "docling" |} sys0 =
  (Raise (HTTPException 500 "broker unreachable"),
   {| queue := []; store := ∅;
      trace := [CLogInfo {| document_id := "doc-1"; parser := "docling" |};
                CGetDocument "doc-1";
                CDelay parse_docling_task "doc-1";
                CLogError
                  "Error queuing parsing task: broker unreachable"] |}).
Proof.
  exact (parse_document_dispatch_failure refusing_world
           {| document_id := "doc-1"; parser := "docling" |} sys0
           {| doc_id := "doc-1" |} parse_docling_task
           (PyException "broker unreachable")
           eq_refl eq_refl eq_refl eq_refl eq_refl).
Defined.

(** X4. Every [Exception] that leaves [parse_document] is one of two: the
    501 of the feature gate, raised with the state untouched and nothing
    logged, or a 500 whose detail is exactly the text that was logged last,
    after the prefix "Error queuing parsing task: ". *)
Theorem parse_document_failures_logged w request s e s' :
  parse_document w request s = (Raise e, s') ->
  is_Exception e = true ->
  (enable_parsers w = false /\ s' = s /\
   e = HTTPException 501
         "Document parsing is disabled in system configuration") \/
  (enable_parsers w = true /\
   exists d, e = HTTPException 500 d /\
     last (trace s') =
       Some (CLogError ("Error queuing parsing task: " +:+ d))).
Proof.
  unfold parse_document. destruct (enable_parsers w); simpl.
  - unfold try_except_Exception.
    destruct (parse_document_body w request s) as [[r|e0] s1].
    + discriminate.
    + destruct (is_Exception e0) eqn:Hx0.
      * unfold_handlers. simpl. intros [= <- <-] _. right.
        split; [reflexivity | ]. exists (str w e0).
        split; [reflexivity | ]. simpl. apply last_snoc.
      * intros [= <- <-] Hx. congruence.
  - unfold raise. intros [= <- <-] _. left. auto.
Qed.

Lemma parse_document_failures_logged_witness :
  (enable_parsers refusing_world = false /\
   snd (parse_document refusing_world
          {| document_id := "doc-1"; parser := "markitdown" |} sys0) = sys0 /\
   HTTPException 500 "broker unreachable" =
   HTTPException 501
     "Document parsing is disabled in system configuration") \/
  (enable_parsers refusing_world = true /\
   exists d, HTTPException 500 "broker unreachable" = HTTPException 500 d /\
     last (trace (snd (parse_document refusing_world
                         {| document_id := "doc-1";
                            parser := "markitdown" |} sys0))) =
       Some (CLogError ("Error queuing parsing task: " +:+ d))).
Proof.
  exact (parse_document_failures_logged refusing_world
           {| document_id := "doc-1"; parser := "markitdown" |} sys0
           (HTTPException 500 "broker unreachable")
           (snd (parse_document refusing_world
                   {| document_id := "doc-1"; parser := "markitdown" |}
                   sys0))
           eq_refl eq_refl).
Defined.

(** X5. Whatever the outcome, one call of [parse_document] only adds to the
    trace, and a [delay] among the calls it made was made for the submitted
    document, with the task of the requested parser, with the feature on,
    and only after the document store had handed back a document for that
    identifier: no task is ever sent for a document the store does not
    have. *)
Theorem parse_document_dispatch_guarded w request s :
  exists evs,
    trace (snd (parse_document w request s)) = trace s ++ evs /\
    forall t d, In (CDelay t d) evs ->
      enable_parsers w = true /\
      d = document_id request /\
      task_of_parser (parser request) = Some t /\
      exists doc, db_get_document w d = Return (Some doc).
Proof.
  unfold parse_document. destruct (enable_parsers w); simpl.
  - unfold try_except_Exception. rewrite parse_document_body_runs.
    unfold looked_up.
    destruct (db_get_document w (document_id request)) as [[doc|]|e] eqn:Hdb.
    + destruct (task_of_parser (parser request)) as [t|] eqn:Ht.
      * destruct (broker_send w t (document_id request) (queue s))
          as [id|e]; [ | destruct (is_Exception e) ];
          unfold_handlers; simpl; rewrite <- ?app_assoc; simpl;
          eexists; (split; [reflexivity | ]);
          intros t' d Hin; simpl in Hin;
          repeat (destruct Hin as [Hin|Hin]; try discriminate Hin);
          try contradiction; injection Hin as <- <-; eauto.
      * unfold_handlers. simpl. rewrite <- ?app_assoc. simpl.
        eexists. split; [reflexivity | ].
        intros t' d Hin. simpl in Hin.
        repeat (destruct Hin as [Hin|Hin]; try discriminate Hin).
        contradiction.
    + unfold_handlers. simpl. rewrite <- ?app_assoc. simpl.
      eexists. split; [reflexivity | ].
      intros t' d Hin. simpl in Hin.
      repeat (destruct Hin as [Hin|Hin]; try discriminate Hin).
      contradiction.
    + destruct (is_Exception e); unfold_handlers; simpl;
        rewrite <- ?app_assoc; simpl;
        eexists; (split; [reflexivity | ]);
        intros t' d Hin; simpl in Hin;
        repeat (destruct Hin as [Hin|Hin]; try discriminate Hin);
        contradiction.
  - exists []. split; [now rewrite app_nil_r | ]. intros t d [].
Qed.

(** A returning submission, read backwards. *)
Lemma parse_document_Return_inv w request s r s' :
  parse_document w request s = (Return r, s') ->
  exists t, task_of_parser (parser request) = Some t /\
            queue s' = queue s ++ [unit_of (task_id r) t request] /\
            store s' = store s.
Proof.
  unfold parse_document. destruct (enable_parsers w); simpl;
    [ | discriminate ].
  unfold try_except_Exception. rewrite parse_document_body_runs.
  destruct (db_get_document w (document_id request)) as [[doc|]|e].
  - destruct (task_of_parser (parser request)) as [t|].
    + destruct (broker_send w t (document_id request) (queue s)) as [id|e].
      * intros [= <- <-]. exists t. simpl. auto.
      * destruct (is_Exception e); discriminate.
    + discriminate.
  - discriminate.
  - destruct (is_Exception e); discriminate.
Qed.

(** X6. Two returning submissions in a row leave two units on the queue,
    behind what was there, in the order of submission, each under its own
    identifier, task and document. Nothing is merged: the same request
    submitted twice is queued twice. *)
Theorem parse_document_fifo w req1 req2 s r1 s1 r2 s2 :
  parse_document w req1 s = (Return r1, s1) ->
  parse_document w req2 s1 = (Return r2, s2) ->
  exists t1 t2,
    task_of_parser (parser req1) = Some t1 /\
    task_of_parser (parser req2) = Some t2 /\
    queue s2 = queue s ++ [unit_of (task_id r1) t1 req1;
                           unit_of (task_id r2) t2 req2].
Proof.
  intros H1 H2.
  destruct (parse_document_Return_inv _ _ _ _ _ H1) as (t1 & Ht1 & Hq1 & _).
  destruct (parse_document_Return_inv _ _ _ _ _ H2) as (t2 & Ht2 & Hq2 & _).
  exists t1, t2. repeat split; try assumption.
  rewrite Hq2, Hq1, <- app_assoc. reflexivity.
Qed.

(** The same request twice: two units, two identifiers. *)
Lemma parse_document_fifo_witness :
  exists t1 t2,
    task_of_parser "markitdown" = Some t1 /\
    task_of_parser "markitdown" = Some t2 /\
    [ {| unit_id := "job-0"; unit_task := parse_markitdown_task;
         unit_document := "doc-1" |};
      {| unit_id := "job-n"; unit_task := parse_markitdown_task;
         unit_document := "doc-1" |} ]
    = [] ++ [unit_of "job-0" t1
               {| document_id := "doc-1"; parser := "markitdown" |};
             unit_of "job-n" t2
               {| document_id := "doc-1"; parser := "markitdown" |}].
Proof.
  exact (parse_document_fifo (demo_world true)
           {| document_id := "doc-1"; parser := "markitdown" |}
           {| document_id := "doc-1"; parser := "markitdown" |}
           sys0
           {| task_id := "job-0"; status_url := "parsing/tasks/job-0" |}
           (snd (parse_document (demo_world true)
                   {| document_id := "doc-1"; parser := "markitdown" |}
                   sys0))
           {| task_id := "job-n"; status_url := "parsing/tasks/job-n" |}
           (snd (parse_document (demo_world true)
                   {| document_id := "doc-1"; parser := "markitdown" |}
                   (snd (parse_document (demo_world true)
                           {| document_id := "doc-1";
                              parser := "markitdown" |} sys0))))
           eq_refl eq_refl).
Defined.

(** ** Further properties of the fleet route *)

(** A query that raises makes the whole call raise, wherever it stands
    among the four. *)
Lemma get_all_tasks_raises w s k e :
  inspect_reply w k = Raise e ->
  exists e' s', get_all_tasks w s = (Raise e', s').
Proof.
  intros Hk. unfold_handlers. simpl.
  destruct (inspect_reply w active) as [a|e1] eqn:Ha; simpl;
    [ | destruct (is_Exception e1); simpl; eauto ].
  destruct (inspect_reply w reserved) as [r|e2] eqn:Hr; simpl;
    [ | destruct (is_Exception e2); simpl; eauto ].
  destruct (inspect_reply w scheduled) as [sc|e3] eqn:Hs; simpl;
    [ | destruct (is_Exception e3); simpl; eauto ].
  destruct (inspect_reply w registered) as [g|e4] eqn:Hg; simpl;
    [ | destruct (is_Exception e4); simpl; eauto ].
  destruct k; congruence.
Qed.

(** X7. [get_all_tasks] returns exactly when each of the four queries
    (active, reserved, scheduled, registered) returns; what the statistics
    query does has no part in it. *)
Theorem get_all_tasks_succeeds_iff w s :
  (exists tasks s', get_all_tasks w s = (Return tasks, s')) <->
  (forall k, exists v, inspect_reply w k = Return v).
Proof.
  split.
  - intros (tasks & s' & Hrun) k.
    destruct (inspect_reply w k) as [v|e] eqn:Hk; [eauto | ].
    destruct (get_all_tasks_raises w s k e Hk) as (e' & s1 & Hraise).
    congruence.
  - intros Hall.
    destruct (Hall active) as [a Ha]. destruct (Hall reserved) as [r Hr].
    destruct (Hall scheduled) as [sc Hs]. destruct (Hall registered) as [g Hg].
    rewrite (get_all_tasks_returns w s a r sc g) by assumption. eauto.
Qed.

(** X8. When the four queries return and the statistics query returns [v],
    the response has the four fields in the order of the queries, followed
    by a ["stats"] field holding [v] exactly when [v] is truthy: an empty
    reply ([None], an empty dict) gives the same response as a statistics
    query that failed. *)
Theorem get_all_tasks_stats_field w s a r sc g v :
  inspect_reply w active = Return a ->
  inspect_reply w reserved = Return r ->
  inspect_reply w scheduled = Return sc ->
  inspect_reply w registered = Return g ->
  stats_reply w = Return v ->
  fst (get_all_tasks w s) =
  Return ([("active", a); ("reserved", r);
           ("scheduled", sc); ("registered", g)]
          ++ if truthy v then [("stats", v)] else []).
Proof.
  intros Ha Hr Hs Hg Hv.
  rewrite (get_all_tasks_returns w s a r sc g) by assumption.
  rewrite Hv. simpl. destruct (truthy v); reflexivity.
Qed.

(** No worker answered the statistics query: the reply is an empty dict and
    the field is left out. *)
Lemma get_all_tasks_stats_field_witness :
  fst (get_all_tasks
         (fleet_world (fun _ => Return one_worker) (Return (PDict []))) sys0)
  = Return ([("active", one_worker); ("reserved", one_worker);
             ("scheduled", one_worker); ("registered", one_worker)]
            ++ if truthy (PDict []) then [("stats", PDict [])] else []).
Proof.
  exact (get_all_tasks_stats_field
           (fleet_world (fun _ => Return one_worker) (Return (PDict [])))
           sys0 one_worker one_worker one_worker one_worker (PDict [])
           eq_refl eq_refl eq_refl eq_refl eq_refl).
Defined.

(** X9. The [except Exception] clause of [get_all_tasks] lets through what
    is not an [Exception]: when one of the four queries raises such an
    exception and those before it returned, the caller gets that very
    exception, not a 500; nothing is logged and the later queries are not
    made. (The bare [except:] around the statistics query, by contrast,
    absorbs it.) *)
Theorem get_all_tasks_base_exception_escapes w s k e :
  inspect_reply w k = Raise e ->
  is_Exception e = false ->
  (forall k', (kind_index k' < kind_index k)%nat ->
              exists v, inspect_reply w k' = Return v) ->
  get_all_tasks w s =
  (Raise e,
   {| queue := queue s; store := store s;
      trace := trace s ++ map CInspect (take (S (kind_index k)) kinds) |}).
Proof.
  intros Hk Hx Hbefore.
  assert (Ha : (kind_index active < kind_index k)%nat ->
               exists v, inspect_reply w active = Return v) by auto.
  assert (Hr : (kind_index reserved < kind_index k)%nat ->
               exists v, inspect_reply w reserved = Return v) by auto.
  assert (Hs : (kind_index scheduled < kind_index k)%nat ->
               exists v, inspect_reply w scheduled = Return v) by auto.
  clear Hbefore.
  destruct k; simpl in *.
  - unfold_handlers. simpl. rewrite Hk, Hx. reflexivity.
  - destruct Ha as [a Ha]; [lia | ].
    unfold_handlers. simpl. rewrite Ha. simpl. rewrite Hk, Hx.
    rewrite <- !app_assoc. reflexivity.
  - destruct Ha as [a Ha]; [lia | ]. destruct Hr as [r Hr]; [lia | ].
    unfold_handlers. simpl. rewrite Ha. simpl. rewrite Hr. simpl.
    rewrite Hk, Hx. rewrite <- !app_assoc. reflexivity.
  - destruct Ha as [a Ha]; [lia | ]. destruct Hr as [r Hr]; [lia | ].
    destruct Hs as [sc Hs]; [lia | ].
    unfold_handlers. simpl. rewrite Ha. simpl. rewrite Hr. simpl.
    rewrite Hs. simpl. rewrite Hk, Hx. rewrite <- !app_assoc. reflexivity.
Qed.

Lemma get_all_tasks_base_exception_escapes_witness :
  get_all_tasks
    (fleet_world
       (fun k => match k with
                 | scheduled => Raise (PyBaseException "KeyboardInterrupt")
                 | _ => Return one_worker
                 end)
       (Return PNone)) sys0 =
  (Raise (PyBaseException "KeyboardInterrupt"),
   {| queue := []; store := ∅;
      trace := [CInspect active; CInspect reserved; CInspect scheduled] |}).
Proof.
  apply (get_all_tasks_base_exception_escapes
           (fleet_world
              (fun k => match k with
                        | scheduled =>
                            Raise (PyBaseException "KeyboardInterrupt")
                        | _ => Return one_worker
                        end)
              (Return PNone)) sys0 scheduled
           (PyBaseException "KeyboardInterrupt")).
  - reflexivity.
  - reflexivity.
  - intros [] Hlt; simpl in Hlt; try lia; exists one_worker; reflexivity.
Defined.

(** ** The feature flag and the other routes *)

(** X10. The feature flag gates the submission route only: [get_parsers],
    [get_task_status] and [get_all_tasks] behave the same whatever
    [settings.features.enable_parsers] is, on every path, failures
    included. With parsing disabled the parsers are still listed and jobs
    and fleet can still be inspected. *)
Theorem other_routes_not_gated w b id s :
  get_parsers (set_enabled b w) s = get_parsers w s /\
  get_task_status (set_enabled b w) id s = get_task_status w id s /\
  get_all_tasks (set_enabled b w) s = get_all_tasks w s.
Proof.
  split; [reflexivity | split; reflexivity].
Qed.

(** ** Further properties of the status route *)

(** X11. What a worker records for a job is what [get_task_status] reports
    for it from then on (state name, and the result once the state is
    terminal), and the report for any other identifier is what it was
    before: the route reads the record of the identifier it is asked about
    and no other. *)
Theorem get_task_status_isolated w id id' m s :
  id' <> id ->
  fst (get_task_status w id (worker_records id m s))
    = Return (response_of id m) /\
  fst (get_task_status w id' (worker_records id m s))
    = fst (get_task_status w id' s).
Proof.
  intros Hne. rewrite !get_task_status_reads. simpl.
  rewrite lookup_insert_eq, lookup_insert_ne by congruence.
  split; reflexivity.
Qed.

Lemma get_task_status_isolated_witness :
  fst (get_task_status (demo_world true) "job-2"
         (worker_records "job-2"
            {| status := FAILURE; result := PStr "parser crashed" |}
            finished_sys))
    = Return {| st_task_id := "job-2"; st_status := "FAILURE";
                st_result := PStr "parser crashed" |} /\
  fst (get_task_status (demo_world true) "job-1"
         (worker_records "job-2"
            {| status := FAILURE; result := PStr "parser crashed" |}
            finished_sys))
    = fst (get_task_status (demo_world true) "job-1" finished_sys).
Proof.
  apply (get_task_status_isolated (demo_world true) "job-2" "job-1"
           {| status := FAILURE; result := PStr "parser crashed" |}
           finished_sys).
  discriminate.
Defined.
